(** * MicroCloud LXD service: bootstrap, join and token issue

    A shallow embedding of [microcloud/service/lxd.go].  The three protocol
    methods of [LXDService] talk to collaborators (the LXD client, the LXD
    utility packages, the local [lxd init] command and two helpers of the
    same package); each such call is a node of a program tree, and a run
    against an arbitrary environment yields the returned error together with
    the trace of the calls that the method body issued, in order. *)

From Stdlib Require Import ZArith.
From stdpp Require Import base option list strings gmap.

Local Open Scope string_scope.
Local Open Scope list_scope.

(** ** Errors *)

(** Modelled from the spec: the error taxonomy of section 7, used for the
    errors that collaborators hand back.  The source only sees them through
    the [error] interface. *)
Inductive kind : Type :=
| NotFound
| IOError
| AlreadyInitialized
| MalformedToken
| AuthRejected
| NetworkError
| Conflict
| VersionMismatch
| OperationFailed
| Timeout.

(** Go [error] values that reach the service: an error produced by a
    collaborator, [fmt.Errorf] with a constant message, and [fmt.Errorf]
    whose format ends in the wrapping verb.  [ErrorfW p e] stands for
    [fmt.Errorf(p ++ "%w", e)]. *)
Inductive error : Type :=
| Collab (k : kind) (text : string)
| Errorf (msg : string)
| ErrorfW (prefix : string) (inner : error).

(** The [Error()] method. *)
Fixpoint Error (e : error) : string :=
  match e with
  | Collab _ text => text
  | Errorf msg => msg
  | ErrorfW prefix inner => prefix +:+ Error inner
  end.

(** [errors.Unwrap]. *)
Definition Unwrap (e : error) : option error :=
  match e with
  | ErrorfW _ inner => Some inner
  | _ => None
  end.

(** A Go pair [(T, error)] in which exactly one side is meaningful. *)
Inductive result (T : Type) : Type :=
| Ok (v : T)
| Err (e : error).
Arguments Ok {T} v.
Arguments Err {T} e.

(** ** API records *)

(** [any] values stored in a server configuration map. *)
Inductive any : Type :=
| any_string (s : string)
| any_int (z : Z)
| any_bool (b : bool).

(** Modelled from the spec: [api.Cluster] and [api.ClusterPut] are declared
    in the LXD client library; the fields are those of the spec's
    ClusterMembershipConfig, which are also the only ones the source reads
    or sets.  A field the source leaves out of a literal has its zero
    value. *)
Record Cluster : Type := mkCluster {
  ServerName : string;
  Enabled : bool
}.

Record ClusterPut : Type := mkClusterPut {
  ClusterPut_Cluster : Cluster;
  ClusterAddress : string;
  ClusterCertificate : string
}.

Record ClusterMembersPost : Type := mkClusterMembersPost {
  Post_ServerName : string
}.

Record ServerPut : Type := mkServerPut {
  Config : gmap string any
}.

Record ProfilePut : Type := mkProfilePut {
  Devices : gmap string (gmap string string)
}.

Record ProfilesPost : Type := mkProfilesPost {
  Profile_ProfilePut : ProfilePut;
  Profile_Name : string
}.

Record StoragePoolsPost : Type := mkStoragePoolsPost {
  Pool_Name : string;
  Pool_Driver : string
}.

Record InitLocalPreseed : Type := mkInitLocalPreseed {
  Node_ServerPut : ServerPut;
  StoragePools : list StoragePoolsPost;
  Profiles : list ProfilesPost
}.

Record InitPreseed : Type := mkInitPreseed {
  Node : InitLocalPreseed
}.

(** Modelled from the spec: the service type enumeration is declared
    elsewhere in the package; the spec gives it exactly one variant. *)
Inductive ServiceType : Type := LXD.

(** ** What the package imports *)

(** The opaque types and the pure functions that [lxd.go] takes from other
    packages, and the package constant [LXDPort], whose declaration is in
    another file. *)
Class Externals : Type := {
  InstanceServer : Type;
  Operation : Type;
  api_Operation : Type;
  CertInfo : Type;
  ClusterMemberJoinToken : Type;
  LXDPort : Z;
  CanonicalNetworkAddress : string -> Z -> string;
  filepath_Join : string -> string -> string;
  yaml_Marshal : InitPreseed -> result (list Byte.byte);
  ToClusterJoinToken : api_Operation -> result ClusterMemberJoinToken;
  JoinToken_String : ClusterMemberJoinToken -> string
}.

(** [bytes.Buffer]: [Write] appends and its error is always nil. *)
Definition Buffer : Type := list Byte.byte.

Definition Buffer_Write (b : Buffer) (p : list Byte.byte)
  : Buffer * nat * option error :=
  (b ++ p, length p, None).

Section Service.
Context `{Ext : Externals}.

(** ** The service *)

Record LXDService : Type := mkLXDService {
  client : InstanceServer;
  dir : string;
  name : string;
  address : string;
  port : Z
}.

(** ** Calls to collaborators *)

(** One constructor per call that the method bodies make; [configFromToken]
    and [SetupTrust] belong to the same package but are defined in other
    files, so they are collaborators here too. *)
Inductive call : Type :=
| ConnectLXDUnix (path : string)
| RunCommandWithFds (stdin : Buffer) (cmd : string) (args : list string)
| GetCluster (c : InstanceServer)
| UpdateCluster (c : InstanceServer) (put : ClusterPut) (ETag : string)
| CreateClusterMember (c : InstanceServer) (post : ClusterMembersPost)
| Wait (op : Operation)
| Get (op : Operation)
| configFromToken (s : LXDService) (token : string)
| LoadServerCert (d : string)
| SetupTrust (cert : CertInfo)
    (serverName clusterAddress clusterCert token : string).

(** What each call returns. *)
Definition resp (c : call) : Type :=
  match c with
  | ConnectLXDUnix _ => result InstanceServer
  | RunCommandWithFds _ _ _ => option error
  | GetCluster _ => result (Cluster * string)
  | UpdateCluster _ _ _ => result Operation
  | CreateClusterMember _ _ => result Operation
  | Wait _ => option error
  | Get _ => api_Operation
  | configFromToken _ _ => result ClusterPut
  | LoadServerCert _ => result CertInfo
  | SetupTrust _ _ _ _ _ => option error
  end.

(** A call together with its answer, as it is logged. *)
Inductive event : Type :=
| EvConnectLXDUnix (path : string) (r : result InstanceServer)
| EvRunCommandWithFds (stdin : Buffer) (cmd : string) (args : list string)
    (r : option error)
| EvGetCluster (c : InstanceServer) (r : result (Cluster * string))
| EvUpdateCluster (c : InstanceServer) (put : ClusterPut) (ETag : string)
    (r : result Operation)
| EvCreateClusterMember (c : InstanceServer) (post : ClusterMembersPost)
    (r : result Operation)
| EvWait (op : Operation) (r : option error)
| EvGet (op : Operation) (r : api_Operation)
| EvConfigFromToken (s : LXDService) (token : string) (r : result ClusterPut)
| EvLoadServerCert (d : string) (r : result CertInfo)
| EvSetupTrust (cert : CertInfo)
    (serverName clusterAddress clusterCert token : string) (r : option error).

Definition log (c : call) : resp c -> event :=
  match c with
  | ConnectLXDUnix p => EvConnectLXDUnix p
  | RunCommandWithFds i c a => EvRunCommandWithFds i c a
  | GetCluster c => EvGetCluster c
  | UpdateCluster c p e => EvUpdateCluster c p e
  | CreateClusterMember c p => EvCreateClusterMember c p
  | Wait op => EvWait op
  | Get op => EvGet op
  | configFromToken s t => EvConfigFromToken s t
  | LoadServerCert d => EvLoadServerCert d
  | SetupTrust c n a k t => EvSetupTrust c n a k t
  end.

(** ** Programs *)

Inductive prog (A : Type) : Type :=
| Ret (a : A)
| Vis (c : call) (k : resp c -> prog A).
Arguments Ret {A} a.
Arguments Vis {A} c k.

Fixpoint bind {A B : Type} (p : prog A) (f : A -> prog B) : prog B :=
  match p with
  | Ret a => f a
  | Vis c k => Vis c (fun r => bind (k r) f)
  end.

Notation "x <~ c ;; p" := (Vis c (fun x => p))
  (at level 100, c at next level, right associativity).

(** An environment answers every call and moves to its next state. *)
Definition handler (W : Type) : Type := forall c : call, W -> resp c * W.

Fixpoint run {W A : Type} (h : handler W) (p : prog A) (w : W)
  : A * W * list event :=
  match p with
  | Ret a => (a, w, [])
  | Vis c k =>
      let '(r, w1) := h c w in
      let '(a, w2, t) := run h (k r) w1 in
      (a, w2, log c r :: t)
  end.

Definition returned {W A : Type} (h : handler W) (p : prog A) (w : W) : A :=
  (run h p w).1.1.

Definition trace {W A : Type} (h : handler W) (p : prog A) (w : W)
  : list event :=
  (run h p w).2.

(** ** The methods of [LXDService] *)

(** [NewLXDService]: the second argument of [ConnectLXDUnix] is nil. *)
Definition NewLXDService (nm addr d : string) : prog (result LXDService) :=
  r <~ ConnectLXDUnix (filepath_Join d "unix.socket") ;;
  match r with
  | Err err => Ret (Err (ErrorfW "Failed to connect to local LXD: " err))
  | Ok cl =>
      Ret (Ok {| client := cl; dir := d; name := nm; address := addr;
                 port := LXDPort |})
  end.

(** The preseed that [Bootstrap] builds in its first lines
    ([addr], [server], [rootDisk], [profile], [storage], [initData]). *)
Definition initData (s : LXDService) : InitPreseed :=
  let addr := CanonicalNetworkAddress (address s) (port s) in
  let server :=
    {| Config := <["core.https_address" := any_string addr]>
                   (<["cluster.https_address" := any_string addr]> ∅) |} in
  let rootDisk : gmap string (gmap string string) :=
    <["root" := <["path" := "/"]> (<["pool" := "local"]>
                   (<["type" := "disk"]> ∅))]> ∅ in
  let profile :=
    {| Profile_ProfilePut := {| Devices := rootDisk |};
       Profile_Name := "default" |} in
  let storage := {| Pool_Name := "local"; Pool_Driver := "dir" |} in
  {| Node := {| Node_ServerPut := server;
                StoragePools := [storage];
                Profiles := [profile] |} |}.

(** [Bootstrap]; the context and the nil output of [RunCommandWithFds] are
    constants and are left out of the call. *)
Definition Bootstrap (s : LXDService) : prog (option error) :=
  match yaml_Marshal (initData s) with
  | Err err =>
      Ret (Some (ErrorfW "Failed to parse preseed configuration as yaml: " err))
  | Ok data =>
      let '(stdin, _, werr) := Buffer_Write [] data in
      match werr with
      | Some err =>
          Ret (Some (ErrorfW "Failed to write preseed configuration: " err))
      | None =>
          e <~ RunCommandWithFds stdin "lxd" ["init"; "--preseed"] ;;
          match e with
          | Some err => Ret (Some (ErrorfW "Failed to initialize LXD: " err))
          | None =>
              r <~ GetCluster (client s) ;;
              match r with
              | Err err =>
                  Ret (Some (ErrorfW
                    "Failed to retrieve current cluster config: " err))
              | Ok (currentCluster, etag) =>
                  if Enabled currentCluster then
                    Ret (Some (Errorf "This LXD server is already clustered"))
                  else
                    r <~ UpdateCluster (client s)
                           {| ClusterPut_Cluster :=
                                {| ServerName := name s; Enabled := true |};
                              ClusterAddress := "";
                              ClusterCertificate := "" |} etag ;;
                    match r with
                    | Err err =>
                        Ret (Some (ErrorfW
                          "Failed to enable clustering on local LXD: " err))
                    | Ok op =>
                        e <~ Wait op ;;
                        match e with
                        | Some err =>
                            Ret (Some (ErrorfW
                              "Failed to configure cluster :" err))
                        | None => Ret None
                        end
                    end
              end
          end
      end
  end.

(** [Join]. *)
Definition Join (s : LXDService) (token : string) : prog (option error) :=
  r <~ configFromToken s token ;;
  match r with
  | Err err => Ret (Some err)
  | Ok config =>
      r <~ LoadServerCert (dir s) ;;
      match r with
      | Err err => Ret (Some err)
      | Ok serverCert =>
          e <~ SetupTrust serverCert (ServerName (ClusterPut_Cluster config))
                 (ClusterAddress config) (ClusterCertificate config) token ;;
          match e with
          | Some err =>
              Ret (Some (ErrorfW
                "Failed to setup trust relationship with cluster: " err))
          | None =>
              r <~ UpdateCluster (client s) config "" ;;
              match r with
              | Err err => Ret (Some (ErrorfW "Failed to join cluster: " err))
              | Ok op =>
                  e <~ Wait op ;;
                  match e with
                  | Some err =>
                      Ret (Some (ErrorfW "Failed to join cluster: " err))
                  | None => Ret None
                  end
              end
          end
      end
  end.

(** [IssueToken]; on failure the string result is empty. *)
Definition IssueToken (s : LXDService) (peer : string)
  : prog (string * option error) :=
  r <~ CreateClusterMember (client s) {| Post_ServerName := peer |} ;;
  match r with
  | Err err => Ret ("", Some err)
  | Ok op =>
      opAPI <~ Get op ;;
      match ToClusterJoinToken opAPI with
      | Err err =>
          Ret ("", Some (ErrorfW
            "Failed converting token operation to join token: " err))
      | Ok joinToken => Ret (JoinToken_String joinToken, None)
      end
  end.

Definition Type_ (s : LXDService) : ServiceType := LXD.
Definition Name (s : LXDService) : string := name s.
Definition Address (s : LXDService) : string := address s.
Definition Port (s : LXDService) : Z := port s.

End Service.

Arguments Ret {Ext A} a.
Arguments Vis {Ext A} c k.

(** ** Observations on traces *)

Definition is_UpdateCluster `{Externals} (e : event) : bool :=
  match e with
  | EvUpdateCluster _ _ _ _ => true
  | _ => false
  end.

Definition is_Wait `{Externals} (e : event) : bool :=
  match e with
  | EvWait _ _ => true
  | _ => false
  end.

(** The error with which a logged call failed, if it did. *)
Definition fault `{Externals} (e : event) : option error :=
  match e with
  | EvConnectLXDUnix _ (Err err)
  | EvGetCluster _ (Err err)
  | EvUpdateCluster _ _ _ (Err err)
  | EvCreateClusterMember _ _ (Err err)
  | EvConfigFromToken _ _ (Err err)
  | EvLoadServerCert _ (Err err)
  | EvRunCommandWithFds _ _ _ (Some err)
  | EvWait _ (Some err)
  | EvSetupTrust _ _ _ _ _ (Some err) => Some err
  | _ => None
  end.

(** A failure of one of the three steps that come before the membership
    update in [Join]: token decoding, certificate loading, trust set-up. *)
Definition trust_fault `{Externals} (e : event) : bool :=
  match e with
  | EvConfigFromToken _ _ (Err _)
  | EvLoadServerCert _ (Err _)
  | EvSetupTrust _ _ _ _ _ (Some _) => true
  | _ => false
  end.

(** The message that each method puts in front of the error of a failed
    call, read off the [fmt.Errorf] lines; [None] where the method has
    [return err]. *)
Definition Bootstrap_stage `{Externals} (e : event) : option string :=
  match e with
  | EvRunCommandWithFds _ _ _ _ => Some "Failed to initialize LXD: "
  | EvGetCluster _ _ => Some "Failed to retrieve current cluster config: "
  | EvUpdateCluster _ _ _ _ =>
      Some "Failed to enable clustering on local LXD: "
  | EvWait _ _ => Some "Failed to configure cluster :"
  | _ => None
  end.

Definition Join_stage `{Externals} (e : event) : option string :=
  match e with
  | EvSetupTrust _ _ _ _ _ _ =>
      Some "Failed to setup trust relationship with cluster: "
  | EvUpdateCluster _ _ _ _ => Some "Failed to join cluster: "
  | EvWait _ _ => Some "Failed to join cluster: "
  | _ => None
  end.

(** A run ends in a stage-wrapped error: when its last call failed with
    [err], the method returned [err] wrapped by [fmt.Errorf]. *)
Definition stage_wrapped `{Externals} (res : option error) (tr : list event)
  : Prop :=
  forall e err, last tr = Some e -> fault e = Some err ->
    exists stage, res = Some (ErrorfW stage err).

(** A run of [IssueToken] awaited the member operation: the operation that
    [CreateClusterMember] returned is waited for, to completion, before its
    state is read. *)
Definition awaited `{Externals} (tr : list event) : Prop :=
  forall pre op r post, tr = pre ++ EvGet op r :: post ->
    EvWait op None ∈ pre.

(** A caller that holds a service value, invokes methods on it and then reads
    the accessors.  The receivers are value receivers, so every invocation
    works on its own copy. *)
Inductive method : Type :=
| CallBootstrap
| CallJoin (token : string)
| CallIssueToken (peer : string).

Definition invoke `{Externals} (s : LXDService) (m : method) : prog unit :=
  match m with
  | CallBootstrap => bind (Bootstrap s) (fun _ => Ret tt)
  | CallJoin token => bind (Join s token) (fun _ => Ret tt)
  | CallIssueToken peer => bind (IssueToken s peer) (fun _ => Ret tt)
  end.

Fixpoint session `{Externals} (s : LXDService) (ms : list method)
  : prog (ServiceType * string * string * Z) :=
  match ms with
  | [] => Ret (Type_ s, Name s, Address s, Port s)
  | m :: ms => bind (invoke s m) (fun _ => session s ms)
  end.

(** ** A scripted environment

    A test double in the sense of section 9 of the spec: the imported types
    are strings and numbers, and every collaborator gives the answer that
    the script holds for it. *)
Module Fake.

#[local] Instance ext : Externals := {|
  InstanceServer := string;
  Operation := nat;
  api_Operation := option string;
  CertInfo := string;
  ClusterMemberJoinToken := string;
  LXDPort := 8443;
  CanonicalNetworkAddress := fun a p =>
    a +:+ ":" +:+ (if (p =? 8443)%Z then "8443" else "0");
  filepath_Join := fun d f => d +:+ "/" +:+ f;
  yaml_Marshal := fun _ => Ok [Byte.x7b; Byte.x7d];
  ToClusterJoinToken := fun o =>
    match o with
    | Some t => Ok t
    | None => Err (Errorf "Operation metadata is nil")
    end;
  JoinToken_String := fun t => t
|}.

Record script : Type := mkScript {
  on_connect : result string;
  on_init : option error;
  on_cluster : result (Cluster * string);
  on_update : result nat;
  on_wait : option error;
  on_get : option string;
  on_config : result ClusterPut;
  on_cert : result string;
  on_trust : option error;
  on_member : result nat
}.

Definition answer : handler script := fun c w =>
  match c return resp c * script with
  | ConnectLXDUnix _ => (on_connect w, w)
  | RunCommandWithFds _ _ _ => (on_init w, w)
  | GetCluster _ => (on_cluster w, w)
  | UpdateCluster _ _ _ => (on_update w, w)
  | CreateClusterMember _ _ => (on_member w, w)
  | Wait _ => (on_wait w, w)
  | Get _ => (on_get w, w)
  | configFromToken _ _ => (on_config w, w)
  | LoadServerCert _ => (on_cert w, w)
  | SetupTrust _ _ _ _ _ => (on_trust w, w)
  end.

Definition node1 : LXDService :=
  {| client := "/var/lib/lxd/unix.socket"; dir := "/var/lib/lxd";
     name := "node1"; address := "10.0.0.5"; port := 8443 |}.

Definition config1 : ClusterPut :=
  {| ClusterPut_Cluster := {| ServerName := "node1"; Enabled := true |};
     ClusterAddress := "10.0.0.1:8443";
     ClusterCertificate := "F" |}.

(** Every collaborator succeeds and the node is not clustered yet. *)
Definition fresh : script :=
  {| on_connect := Ok "/var/lib/lxd/unix.socket";
     on_init := None;
     on_cluster := Ok ({| ServerName := ""; Enabled := false |}, "etag0");
     on_update := Ok 1;
     on_wait := None;
     on_get := Some "TOKEN";
     on_config := Ok config1;
     on_cert := Ok "CERT";
     on_trust := None;
     on_member := Ok 2 |}.

Definition clustered : script :=
  {| on_connect := on_connect fresh;
     on_init := None;
     on_cluster := Ok ({| ServerName := "node1"; Enabled := true |}, "etag1");
     on_update := on_update fresh;
     on_wait := None;
     on_get := on_get fresh;
     on_config := on_config fresh;
     on_cert := on_cert fresh;
     on_trust := None;
     on_member := on_member fresh |}.

Definition untrusted : script :=
  {| on_connect := on_connect fresh;
     on_init := None;
     on_cluster := on_cluster fresh;
     on_update := on_update fresh;
     on_wait := None;
     on_get := on_get fresh;
     on_config := on_config fresh;
     on_cert := on_cert fresh;
     on_trust := Some (Collab AuthRejected "not authorized");
     on_member := on_member fresh |}.

Definition no_cert : script :=
  {| on_connect := on_connect fresh;
     on_init := None;
     on_cluster := on_cluster fresh;
     on_update := on_update fresh;
     on_wait := None;
     on_get := on_get fresh;
     on_config := on_config fresh;
     on_cert := Err (Collab NotFound "server.crt: no such file");
     on_trust := None;
     on_member := on_member fresh |}.

Definition name_taken : script :=
  {| on_connect := on_connect fresh;
     on_init := None;
     on_cluster := on_cluster clustered;
     on_update := on_update fresh;
     on_wait := None;
     on_get := on_get fresh;
     on_config := on_config fresh;
     on_cert := on_cert fresh;
     on_trust := None;
     on_member := Err (Collab Conflict "member node2 already exists") |}.

Definition unreachable : script :=
  {| on_connect := on_connect fresh;
     on_init := None;
     on_cluster := on_cluster clustered;
     on_update := on_update fresh;
     on_wait := None;
     on_get := on_get fresh;
     on_config := on_config fresh;
     on_cert := on_cert fresh;
     on_trust := None;
     on_member := Err (Collab NetworkError "connection refused") |}.

End Fake.

(** ** Further observations *)

(** The errors that [errors.Is] visits: the error itself, then what it
    wraps, and so on. *)
Fixpoint chain (e : error) : list error :=
  match e with
  | ErrorfW _ inner => e :: chain inner
  | _ => [e]
  end.

(** A returned error carries [err]: [err] is on its chain and its message
    ends with the message of [err]. *)
Definition carries (r : option error) (err : error) : Prop :=
  exists e, r = Some e /\ err ∈ chain e /\
            exists p, Error e = p +:+ Error err.

(** The error side of a Go pair. *)
Definition failure {T : Type} (r : result T) : option error :=
  match r with
  | Ok _ => None
  | Err e => Some e
  end.

(** The function that a logged call went to. *)
Definition call_name `{Externals} (e : event) : string :=
  match e with
  | EvConnectLXDUnix _ _ => "ConnectLXDUnix"
  | EvRunCommandWithFds _ _ _ _ => "RunCommandWithFds"
  | EvGetCluster _ _ => "GetCluster"
  | EvUpdateCluster _ _ _ _ => "UpdateCluster"
  | EvCreateClusterMember _ _ _ => "CreateClusterMember"
  | EvWait _ _ => "Wait"
  | EvGet _ _ => "Get"
  | EvConfigFromToken _ _ _ => "configFromToken"
  | EvLoadServerCert _ _ => "LoadServerCert"
  | EvSetupTrust _ _ _ _ _ _ => "SetupTrust"
  end.

(** The formats of the wrapped errors that [Bootstrap] is seen to return. *)
Definition Bootstrap_messages : list string :=
  ["Failed to parse preseed configuration as yaml: ";
   "Failed to initialize LXD: ";
   "Failed to retrieve current cluster config: ";
   "Failed to enable clustering on local LXD: ";
   "Failed to configure cluster :"].

(** More scripts for the scripted environment. *)
Module Scripts.

Definition refused : error := Collab NetworkError "connection refused".

Definition with_init (e : option error) (w : Fake.script) : Fake.script :=
  {| Fake.on_connect := Fake.on_connect w;
     Fake.on_init := e;
     Fake.on_cluster := Fake.on_cluster w;
     Fake.on_update := Fake.on_update w;
     Fake.on_wait := Fake.on_wait w;
     Fake.on_get := Fake.on_get w;
     Fake.on_config := Fake.on_config w;
     Fake.on_cert := Fake.on_cert w;
     Fake.on_trust := Fake.on_trust w;
     Fake.on_member := Fake.on_member w |}.

Definition with_update (r : result nat) (w : Fake.script) : Fake.script :=
  {| Fake.on_connect := Fake.on_connect w;
     Fake.on_init := Fake.on_init w;
     Fake.on_cluster := Fake.on_cluster w;
     Fake.on_update := r;
     Fake.on_wait := Fake.on_wait w;
     Fake.on_get := Fake.on_get w;
     Fake.on_config := Fake.on_config w;
     Fake.on_cert := Fake.on_cert w;
     Fake.on_trust := Fake.on_trust w;
     Fake.on_member := Fake.on_member w |}.

Definition with_wait (e : option error) (w : Fake.script) : Fake.script :=
  {| Fake.on_connect := Fake.on_connect w;
     Fake.on_init := Fake.on_init w;
     Fake.on_cluster := Fake.on_cluster w;
     Fake.on_update := Fake.on_update w;
     Fake.on_wait := e;
     Fake.on_get := Fake.on_get w;
     Fake.on_config := Fake.on_config w;
     Fake.on_cert := Fake.on_cert w;
     Fake.on_trust := Fake.on_trust w;
     Fake.on_member := Fake.on_member w |}.

Definition with_get (o : option string) (w : Fake.script) : Fake.script :=
  {| Fake.on_connect := Fake.on_connect w;
     Fake.on_init := Fake.on_init w;
     Fake.on_cluster := Fake.on_cluster w;
     Fake.on_update := Fake.on_update w;
     Fake.on_wait := Fake.on_wait w;
     Fake.on_get := o;
     Fake.on_config := Fake.on_config w;
     Fake.on_cert := Fake.on_cert w;
     Fake.on_trust := Fake.on_trust w;
     Fake.on_member := Fake.on_member w |}.

Definition init_fails : Fake.script := with_init (Some refused) Fake.fresh.
Definition update_fails : Fake.script := with_update (Err refused) Fake.fresh.
Definition wait_fails : Fake.script := with_wait (Some refused) Fake.fresh.
Definition no_metadata : Fake.script := with_get None Fake.fresh.

End Scripts.

(** An environment in which nothing works: the preseed does not marshal and
    every collaborator that can fail does. *)
Module Broken.

#[local] Instance ext : Externals := {|
  InstanceServer := unit;
  Operation := unit;
  api_Operation := unit;
  CertInfo := unit;
  ClusterMemberJoinToken := unit;
  LXDPort := 8443;
  CanonicalNetworkAddress := fun a _ => a;
  filepath_Join := fun d f => d +:+ "/" +:+ f;
  yaml_Marshal := fun _ => Err (Errorf "yaml: unsupported value");
  ToClusterJoinToken := fun _ => Err (Errorf "Operation metadata is nil");
  JoinToken_String := fun _ => ""
|}.

Definition answer : handler unit := fun c w =>
  match c return resp c * unit with
  | ConnectLXDUnix _ => (Err Scripts.refused, w)
  | RunCommandWithFds _ _ _ => (Some Scripts.refused, w)
  | GetCluster _ => (Err Scripts.refused, w)
  | UpdateCluster _ _ _ => (Err Scripts.refused, w)
  | CreateClusterMember _ _ => (Err Scripts.refused, w)
  | Wait _ => (Some Scripts.refused, w)
  | Get _ => (tt, w)
  | configFromToken _ _ => (Err Scripts.refused, w)
  | LoadServerCert _ => (Err Scripts.refused, w)
  | SetupTrust _ _ _ _ _ => (Some Scripts.refused, w)
  end.

Definition node : LXDService :=
  {| client := tt; dir := "/var/lib/lxd"; name := "node1";
     address := "10.0.0.5"; port := 8443 |}.

End Broken.

(** * Properties of the methods, in every environment *)

Section Properties.
Context `{Ext : Externals} {W : Type} (h : handler W).

(** Case analysis on the answers that the environment gives along a run. *)
Ltac answers :=
  unfold trace, returned; cbn;
  repeat (case_match; simplify_eq/=).

(** Finds the position of an event in an explicit trace. *)
Ltac locate pre :=
  repeat (destruct pre as [|? pre]; simplify_eq/=).

Lemma run_bind {A B : Type} (p : prog A) (f : A -> prog B) (w : W) :
  run h (bind p f) w =
  let '(a, w1, t1) := run h p w in
  let '(b, w2, t2) := run h (f a) w1 in
  (b, w2, t1 ++ t2).
Proof.
  revert w. induction p as [a|c k IH]; intros w; cbn.
  - by destruct (run h (f a) w) as [[b w2] t2].
  - destruct (h c w) as [r w1]. rewrite IH.
    destruct (run h (k r) w1) as [[a w2] t1].
    by destruct (run h (f a) w2) as [[b w3] t2].
Qed.

Lemma returned_bind_const {A B : Type} (p : prog A) (q : prog B) (w : W) :
  returned h (bind p (fun _ => q)) w = returned h q (run h p w).1.2.
Proof.
  unfold returned. rewrite run_bind.
  destruct (run h p w) as [[a w1] t1]; cbn.
  by destruct (run h q w1) as [[b w2] t2].
Qed.

(** C1. In every run of [Join], whatever the environment answers, an
    [UpdateCluster] call comes after exactly three calls: the token was
    decoded, the server certificate was loaded, and [SetupTrust] was called
    with that certificate, the cluster address of the decoded token and the
    token itself, and all three succeeded.  If any of the three fails, [Join]
    returns an error and its trace has no [UpdateCluster] call. *)
Theorem Join_trust_before_UpdateCluster (s : LXDService) (token : string)
    (w : W) :
  let tr := trace h (Join s token) w in
  (forall pre c put etag r post,
     tr = pre ++ EvUpdateCluster c put etag r :: post ->
     exists config serverCert,
       pre = [EvConfigFromToken s token (Ok config);
              EvLoadServerCert (dir s) (Ok serverCert);
              EvSetupTrust serverCert (ServerName (ClusterPut_Cluster config))
                (ClusterAddress config) (ClusterCertificate config) token
                None]) /\
  (Exists (fun e => trust_fault e = true) tr ->
     is_Some (returned h (Join s token) w) /\
     Forall (fun e => is_UpdateCluster e = false) tr).
Proof.
  intros tr; subst tr. unfold Join. answers.
  all: split;
    [ intros pre ? ? ? ? ? Hsplit; locate pre; eauto
    | rewrite ?Exists_cons, Exists_nil; intros Hfault;
      try (exfalso; cbn in Hfault; intuition discriminate; fail);
      split; eauto 10 ].
Qed.

(** C7. Whenever the environment lets the token decode, the certificate
    load and [SetupTrust] succeed, [Join] makes its [UpdateCluster] call, and
    makes it on the service's client with the decoded configuration and the
    empty string as version.  Every [UpdateCluster] call of [Join] is of
    that form.  [Bootstrap], unlike it, makes its [UpdateCluster] call with
    the etag of the [GetCluster] answer just before it, whenever the init
    command succeeded and that answer says the node is not clustered; every
    [UpdateCluster] call of [Bootstrap] carries such an etag. *)
Theorem Join_UpdateCluster_no_version (s : LXDService) (token : string)
    (w : W) :
  (forall config serverCert w1 w2 w3,
     h (configFromToken s token) w = (Ok config, w1) ->
     h (LoadServerCert (dir s)) w1 = (Ok serverCert, w2) ->
     h (SetupTrust serverCert (ServerName (ClusterPut_Cluster config))
          (ClusterAddress config) (ClusterCertificate config) token) w2 =
       (None, w3) ->
     exists r post,
       trace h (Join s token) w =
         [EvConfigFromToken s token (Ok config);
          EvLoadServerCert (dir s) (Ok serverCert);
          EvSetupTrust serverCert (ServerName (ClusterPut_Cluster config))
            (ClusterAddress config) (ClusterCertificate config) token None;
          EvUpdateCluster (client s) config "" r] ++ post /\
       (h (UpdateCluster (client s) config "") w3).1 = r) /\
  (forall pre c put etag r post,
     trace h (Join s token) w = pre ++ EvUpdateCluster c put etag r :: post ->
     etag = "" /\ c = client s /\
     head pre = Some (EvConfigFromToken s token (Ok put))) /\
  (forall data cl etag w1 w2,
     yaml_Marshal (initData s) = Ok data ->
     h (RunCommandWithFds data "lxd" ["init"; "--preseed"]) w = (None, w1) ->
     h (GetCluster (client s)) w1 = (Ok (cl, etag), w2) ->
     Enabled cl = false ->
     exists r post,
       trace h (Bootstrap s) w =
         [EvRunCommandWithFds data "lxd" ["init"; "--preseed"] None;
          EvGetCluster (client s) (Ok (cl, etag));
          EvUpdateCluster (client s)
            {| ClusterPut_Cluster :=
                 {| ServerName := name s; Enabled := true |};
               ClusterAddress := ""; ClusterCertificate := "" |} etag r]
         ++ post) /\
  (forall pre c put etag r post,
     trace h (Bootstrap s) w = pre ++ EvUpdateCluster c put etag r :: post ->
     exists cl, last pre = Some (EvGetCluster (client s) (Ok (cl, etag)))).
Proof.
  split_and!.
  - intros config serverCert w1 w2 w3 Hconfig Hcert Htrust.
    unfold trace, Join. cbn. rewrite Hconfig. cbn. rewrite Hcert. cbn.
    rewrite Htrust. cbn.
    destruct (h (UpdateCluster (client s) config "") w3) as [r w4] eqn:Hput.
    cbn in r |- *. exists r. destruct r as [op|err]; cbn.
    + destruct (h (Wait op) w4) as [e w5]. cbn in e |- *.
      destruct e; cbn; by eexists.
    + by eexists.
  - unfold Join. answers; intros pre ? ? ? ? ? Hsplit; by locate pre.
  - intros data cl etag w1 w2 Hyaml Hinit Hget Hfresh.
    unfold trace, Bootstrap. rewrite Hyaml. cbn. rewrite Hinit. cbn.
    rewrite Hget. cbn. rewrite Hfresh.
    repeat (case_match; simplify_eq/=); by eexists _, _.
  - unfold Bootstrap. answers;
      intros pre ? ? ? ? ? Hsplit; locate pre; eauto.
Qed.

(** C2. When the cluster state that [Bootstrap] fetched has [Enabled] set,
    [Bootstrap] returns the already-clustered error, [GetCluster] was its
    last call and it made no [UpdateCluster] call.  No other failure of
    [Bootstrap] has the message of that error. *)
Theorem Bootstrap_already_clustered (s : LXDService) (w : W) :
  let tr := trace h (Bootstrap s) w in
  let res := returned h (Bootstrap s) w in
  (forall pre c cl etag post,
     tr = pre ++ EvGetCluster c (Ok (cl, etag)) :: post ->
     Enabled cl = true ->
     res = Some (Errorf "This LXD server is already clustered") /\
     post = [] /\
     Forall (fun e => is_UpdateCluster e = false) tr) /\
  (forall err,
     res = Some err ->
     Error err = "This LXD server is already clustered" ->
     exists pre cl etag,
       tr = pre ++ [EvGetCluster (client s) (Ok (cl, etag))] /\
       Enabled cl = true).
Proof.
  intros tr res; subst tr res. unfold Bootstrap. answers.
  all: split;
    [ intros pre ? ? ? ? Hsplit Hen; locate pre;
      try congruence; split_and!; eauto 10
    | intros err Herr Hmsg; simplify_eq/=;
      try by eexists [_], _, _ ].
Qed.

(** C9. In every run of [Bootstrap], a [GetCluster] call has exactly one
    call before it: [lxd init --preseed], fed the marshalled preseed, which
    succeeded.  A run that ends in the already-clustered error therefore made
    that call first. *)
Theorem Bootstrap_init_before_GetCluster (s : LXDService) (w : W) :
  let tr := trace h (Bootstrap s) w in
  let res := returned h (Bootstrap s) w in
  (forall pre c r post,
     tr = pre ++ EvGetCluster c r :: post ->
     exists data,
       yaml_Marshal (initData s) = Ok data /\
       pre = [EvRunCommandWithFds data "lxd" ["init"; "--preseed"] None]) /\
  (res = Some (Errorf "This LXD server is already clustered") ->
   exists data cl etag,
     tr = [EvRunCommandWithFds data "lxd" ["init"; "--preseed"] None;
           EvGetCluster (client s) (Ok (cl, etag))] /\
     Enabled cl = true).
Proof.
  intros tr res; subst tr res. unfold Bootstrap. answers.
  all: split;
    [ intros pre ? ? ? Hsplit; locate pre; eauto
    | intros Hres; simplify_eq/=; eauto 10 ].
Qed.

(** C5. Once [Bootstrap] has read a cluster state that is not enabled, its
    next call is [UpdateCluster] on the service's client with the
    configuration [{ServerName: s.name, Enabled: true}] (all other fields
    zero) and the etag of that read; when the call returns an operation, the
    one remaining call is [Wait] on that operation.  A run that returns nil
    made exactly these calls. *)
Theorem Bootstrap_UpdateCluster_call (s : LXDService) (w : W) :
  let tr := trace h (Bootstrap s) w in
  let put :=
    {| ClusterPut_Cluster := {| ServerName := name s; Enabled := true |};
       ClusterAddress := ""; ClusterCertificate := "" |} in
  (forall pre c cl etag post,
     tr = pre ++ EvGetCluster c (Ok (cl, etag)) :: post ->
     Enabled cl = false ->
     (exists err, post = [EvUpdateCluster (client s) put etag (Err err)]) \/
     (exists op e, post = [EvUpdateCluster (client s) put etag (Ok op);
                           EvWait op e])) /\
  (returned h (Bootstrap s) w = None ->
   exists data cl etag op,
     Enabled cl = false /\
     tr = [EvRunCommandWithFds data "lxd" ["init"; "--preseed"] None;
           EvGetCluster (client s) (Ok (cl, etag));
           EvUpdateCluster (client s) put etag (Ok op);
           EvWait op None]).
Proof.
  intros tr put; subst tr put. unfold Bootstrap. answers.
  all: split;
    [ intros pre ? ? ? ? Hsplit Hen; locate pre; try congruence; eauto
    | intros Hres; simplify_eq/=; eauto 10 ].
Qed.

(** C6. When the preseed marshals to [data], the first call of [Bootstrap]
    is [lxd init --preseed] with [data] on its standard input, and it is the
    only such call.  The preseed sets [core.https_address] to the canonical
    form of the service's address and port, has exactly one storage pool and
    exactly one profile, named [default], whose [root] device is a disk with
    path [/]. *)
Theorem Bootstrap_preseed (s : LXDService) (w : W) (data : list Byte.byte) :
  yaml_Marshal (initData s) = Ok data ->
  let addr := CanonicalNetworkAddress (address s) (port s) in
  let node := Node (initData s) in
  (exists r post,
     trace h (Bootstrap s) w =
       EvRunCommandWithFds data "lxd" ["init"; "--preseed"] r :: post /\
     Forall (fun e => match e with
                      | EvRunCommandWithFds _ _ _ _ => False
                      | _ => True
                      end) post) /\
  Config (Node_ServerPut node) !! "core.https_address" =
    Some (any_string addr) /\
  length (StoragePools node) = 1 /\
  exists profile rootDev,
    Profiles node = [profile] /\
    Profile_Name profile = "default" /\
    Devices (Profile_ProfilePut profile) !! "root" = Some rootDev /\
    rootDev !! "type" = Some "disk" /\
    rootDev !! "path" = Some "/".
Proof.
  intros Hyaml addr node. split_and!.
  - unfold Bootstrap. rewrite Hyaml. answers; eauto 10.
  - done.
  - done.
  - eexists _, _. split_and!; [reflexivity|reflexivity|..]; cbn.
    + apply lookup_insert_eq.
    + by rewrite lookup_insert_ne, lookup_insert_ne, lookup_insert_eq.
    + apply lookup_insert_eq.
Qed.

(** C3, as the code has it.  [IssueToken] makes at most two calls:
    [CreateClusterMember] on the service's client with the peer name, and,
    when that returned an operation, [Get] on it.  The state that [Get]
    returned is converted to a join token, whose string is returned; a failed
    conversion is wrapped.  No run of [IssueToken] contains a [Wait]. *)
Theorem IssueToken_reads_without_waiting (s : LXDService) (peer : string)
    (w : W) :
  let tr := trace h (IssueToken s peer) w in
  let res := returned h (IssueToken s peer) w in
  let post := {| Post_ServerName := peer |} in
  ((exists err,
      tr = [EvCreateClusterMember (client s) post (Err err)] /\
      res = ("", Some err)) \/
   (exists op opAPI,
      tr = [EvCreateClusterMember (client s) post (Ok op); EvGet op opAPI] /\
      res = match ToClusterJoinToken opAPI with
            | Ok joinToken => (JoinToken_String joinToken, None)
            | Err err =>
                ("", Some (ErrorfW
                   "Failed converting token operation to join token: " err))
            end)) /\
  Forall (fun e => is_Wait e = false) tr.
Proof.
  intros tr res post; subst tr res post. unfold IssueToken. answers.
  all: split; [|eauto 10].
  all: first [ left; eexists; split; reflexivity
             | right; eexists _, _; split; [reflexivity|];
               by repeat (case_match; simplify_eq/=) ].
Qed.

(** C4, as the code has it.  When the last call of a run failed with [err]:
    [Bootstrap] returns [err] wrapped with the message of the failed stage;
    [Join] does the same for [SetupTrust], [UpdateCluster] and [Wait], and
    returns [err] itself when token decoding or certificate loading failed;
    [IssueToken] returns [err] itself. *)
Theorem failures_wrapped_or_passed_on (s : LXDService) (w : W) :
  (forall e err,
     last (trace h (Bootstrap s) w) = Some e -> fault e = Some err ->
     exists stage,
       Bootstrap_stage e = Some stage /\
       returned h (Bootstrap s) w = Some (ErrorfW stage err)) /\
  (forall token e err,
     last (trace h (Join s token) w) = Some e -> fault e = Some err ->
     returned h (Join s token) w =
       Some (match Join_stage e with
             | Some stage => ErrorfW stage err
             | None => err
             end) /\
     (Join_stage e = None <->
      (exists r, e = EvConfigFromToken s token r) \/
      (exists r, e = EvLoadServerCert (dir s) r))) /\
  (forall peer e err,
     last (trace h (IssueToken s peer) w) = Some e -> fault e = Some err ->
     returned h (IssueToken s peer) w = ("", Some err)).
Proof.
  split_and!.
  - unfold Bootstrap. answers; intros ? ? Hlast Hfault; simplify_eq/=; eauto.
  - intros token. unfold Join. answers; intros ? ? Hlast Hfault;
      simplify_eq/=; (split; [done|]);
      (split; [intros ?; by eauto | intros [[? ?]|[? ?]]; done]).
  - intros peer. unfold IssueToken.
    answers; intros ? ? Hlast Hfault; by simplify_eq/=.
Qed.

(** C8. When [CreateClusterMember] fails, [IssueToken] returns the empty
    string and the very error that the client returned; a [Conflict] is
    therefore returned as a [Conflict], neither wrapped nor turned into a
    [NetworkError]. *)
Theorem IssueToken_surfaces_Conflict (s : LXDService) (peer : string) (w : W)
    (pre post : list event) (c : InstanceServer) (m : ClusterMembersPost)
    (err : error) :
  trace h (IssueToken s peer) w =
    pre ++ EvCreateClusterMember c m (Err err) :: post ->
  returned h (IssueToken s peer) w = ("", Some err) /\
  (forall text, err = Collab Conflict text ->
     Unwrap err = None /\
     forall text', (returned h (IssueToken s peer) w).2
                     <> Some (Collab NetworkError text')).
Proof.
  unfold IssueToken. answers; intros Hsplit; locate pre.
  split; [done|]. by intros text ->.
Qed.

(** The accessors read after any sequence of method calls. *)
Lemma session_returned (s : LXDService) (ms : list method) (w : W) :
  returned h (session s ms) w = (Type_ s, Name s, Address s, Port s).
Proof.
  revert w. induction ms as [|m ms IH]; intros w; [done|].
  cbn [session]. by rewrite returned_bind_const.
Qed.

(** C10. A service that [NewLXDService] returned has the package constant
    [LXDPort] as its port and the constructor's arguments as its name and
    address, and the accessors give the same values after any sequence of
    [Bootstrap], [Join] and [IssueToken] calls, in any environment state. *)
Theorem NewLXDService_accessors (nm addr d : string) (w w1 : W)
    (s : LXDService) (t : list event) :
  run h (NewLXDService nm addr d) w = (Ok s, w1, t) ->
  Port s = LXDPort /\ Name s = nm /\ Address s = addr /\
  forall ms w2,
    returned h (session s ms) w2 = (LXD, nm, addr, LXDPort).
Proof.
  unfold NewLXDService. cbn. intros Hrun.
  repeat (case_match; simplify_eq/=).
  split_and!; [done..|]. intros ms w2. by rewrite session_returned.
Qed.

End Properties.

(** * The methods in the scripted environment *)

Section Runs.
#[local] Existing Instance Fake.ext.

(** Runs of the methods in the scripted environment. *)
Example Join_fresh_run :
  run Fake.answer (Join Fake.node1 "TOKEN") Fake.fresh =
  (None, Fake.fresh,
   [EvConfigFromToken Fake.node1 "TOKEN" (Ok Fake.config1);
    EvLoadServerCert "/var/lib/lxd" (Ok "CERT");
    EvSetupTrust "CERT" "node1" "10.0.0.1:8443" "F" "TOKEN" None;
    EvUpdateCluster "/var/lib/lxd/unix.socket" Fake.config1 "" (Ok 1);
    EvWait 1 None]).
Proof. reflexivity. Qed.

Example Bootstrap_fresh_run :
  run Fake.answer (Bootstrap Fake.node1) Fake.fresh =
  (None, Fake.fresh,
   [EvRunCommandWithFds [Byte.x7b; Byte.x7d] "lxd" ["init"; "--preseed"] None;
    EvGetCluster "/var/lib/lxd/unix.socket"
      (Ok ({| ServerName := ""; Enabled := false |}, "etag0"));
    EvUpdateCluster "/var/lib/lxd/unix.socket"
      {| ClusterPut_Cluster := {| ServerName := "node1"; Enabled := true |};
         ClusterAddress := ""; ClusterCertificate := "" |} "etag0" (Ok 1);
    EvWait 1 None]).
Proof. reflexivity. Qed.

Example IssueToken_fresh_run :
  run Fake.answer (IssueToken Fake.node1 "node2") Fake.fresh =
  ("TOKEN", None, Fake.fresh,
   [EvCreateClusterMember "/var/lib/lxd/unix.socket"
      {| Post_ServerName := "node2" |} (Ok 2);
    EvGet 2 (Some "TOKEN")]).
Proof. reflexivity. Qed.

Example Bootstrap_clustered_run :
  run Fake.answer (Bootstrap Fake.node1) Fake.clustered =
  (Some (Errorf "This LXD server is already clustered"), Fake.clustered,
   [EvRunCommandWithFds [Byte.x7b; Byte.x7d] "lxd" ["init"; "--preseed"] None;
    EvGetCluster "/var/lib/lxd/unix.socket"
      (Ok ({| ServerName := "node1"; Enabled := true |}, "etag1"))]).
Proof. reflexivity. Qed.

Example Join_untrusted_run :
  run Fake.answer (Join Fake.node1 "TOKEN") Fake.untrusted =
  (Some (ErrorfW "Failed to setup trust relationship with cluster: "
           (Collab AuthRejected "not authorized")),
   Fake.untrusted,
   [EvConfigFromToken Fake.node1 "TOKEN" (Ok Fake.config1);
    EvLoadServerCert "/var/lib/lxd" (Ok "CERT");
    EvSetupTrust "CERT" "node1" "10.0.0.1:8443" "F" "TOKEN"
      (Some (Collab AuthRejected "not authorized"))]).
Proof. reflexivity. Qed.

Example Join_no_cert_run :
  run Fake.answer (Join Fake.node1 "TOKEN") Fake.no_cert =
  (Some (Collab NotFound "server.crt: no such file"), Fake.no_cert,
   [EvConfigFromToken Fake.node1 "TOKEN" (Ok Fake.config1);
    EvLoadServerCert "/var/lib/lxd"
      (Err (Collab NotFound "server.crt: no such file"))]).
Proof. reflexivity. Qed.

Example IssueToken_unreachable_run :
  run Fake.answer (IssueToken Fake.node1 "node2") Fake.unreachable =
  ("", Some (Collab NetworkError "connection refused"), Fake.unreachable,
   [EvCreateClusterMember "/var/lib/lxd/unix.socket"
      {| Post_ServerName := "node2" |}
      (Err (Collab NetworkError "connection refused"))]).
Proof. reflexivity. Qed.

Example node1_https_address :
  Config (Node_ServerPut (Node (initData Fake.node1)))
    !! "core.https_address" = Some (any_string "10.0.0.5:8443").
Proof. reflexivity. Qed.

(** ** The theorems at the runs above *)

Lemma Join_trust_before_UpdateCluster_witness :
  (exists config serverCert,
     [EvConfigFromToken Fake.node1 "TOKEN" (Ok Fake.config1);
      EvLoadServerCert "/var/lib/lxd" (Ok "CERT");
      EvSetupTrust "CERT" "node1" "10.0.0.1:8443" "F" "TOKEN" None] =
     [EvConfigFromToken Fake.node1 "TOKEN" (Ok config);
      EvLoadServerCert (dir Fake.node1) (Ok serverCert);
      EvSetupTrust serverCert (ServerName (ClusterPut_Cluster config))
        (ClusterAddress config) (ClusterCertificate config) "TOKEN" None]) /\
  (is_Some (returned Fake.answer (Join Fake.node1 "TOKEN") Fake.untrusted) /\
   Forall (fun e => is_UpdateCluster e = false)
     (trace Fake.answer (Join Fake.node1 "TOKEN") Fake.untrusted)).
Proof.
  pose proof (Join_trust_before_UpdateCluster Fake.answer Fake.node1
                "TOKEN" Fake.fresh) as [Hbefore _].
  pose proof (Join_trust_before_UpdateCluster Fake.answer Fake.node1
                "TOKEN" Fake.untrusted) as [_ Hfault].
  split.
  - apply (Hbefore _ "/var/lib/lxd/unix.socket" Fake.config1 "" (Ok 1)
             [EvWait (Ext := Fake.ext) 1 None]).
    reflexivity.
  - apply Hfault.
    do 2 apply Exists_cons_tl. apply Exists_cons_hd. reflexivity.
Defined.

Lemma Join_UpdateCluster_no_version_witness :
  (exists r post,
     trace Fake.answer (Join Fake.node1 "TOKEN") Fake.fresh =
       [EvConfigFromToken Fake.node1 "TOKEN" (Ok Fake.config1);
        EvLoadServerCert "/var/lib/lxd" (Ok "CERT");
        EvSetupTrust "CERT" "node1" "10.0.0.1:8443" "F" "TOKEN" None;
        EvUpdateCluster "/var/lib/lxd/unix.socket" Fake.config1 "" r]
       ++ post) /\
  ("" = "" /\ "/var/lib/lxd/unix.socket" = client Fake.node1 /\
   head [EvConfigFromToken Fake.node1 "TOKEN" (Ok Fake.config1);
         EvLoadServerCert "/var/lib/lxd" (Ok "CERT");
         EvSetupTrust "CERT" "node1" "10.0.0.1:8443" "F" "TOKEN" None] =
     Some (EvConfigFromToken Fake.node1 "TOKEN" (Ok Fake.config1))) /\
  (exists r post,
     trace Fake.answer (Bootstrap Fake.node1) Fake.fresh =
       [EvRunCommandWithFds [Byte.x7b; Byte.x7d] "lxd" ["init"; "--preseed"]
          None;
        EvGetCluster "/var/lib/lxd/unix.socket"
          (Ok ({| ServerName := ""; Enabled := false |}, "etag0"));
        EvUpdateCluster "/var/lib/lxd/unix.socket"
          {| ClusterPut_Cluster :=
               {| ServerName := name Fake.node1; Enabled := true |};
             ClusterAddress := ""; ClusterCertificate := "" |} "etag0" r]
       ++ post) /\
  (exists cl,
     last [EvRunCommandWithFds [Byte.x7b; Byte.x7d] "lxd"
             ["init"; "--preseed"] None;
           EvGetCluster "/var/lib/lxd/unix.socket"
             (Ok ({| ServerName := ""; Enabled := false |}, "etag0"))] =
     Some (EvGetCluster (client Fake.node1) (Ok (cl, "etag0")))).
Proof.
  pose proof (Join_UpdateCluster_no_version Fake.answer Fake.node1
                "TOKEN" Fake.fresh)
    as (HJoinCalls & HJoin & HBootstrapCalls & HBootstrap).
  split; [|split; [|split]].
  - destruct (HJoinCalls Fake.config1 "CERT" Fake.fresh Fake.fresh Fake.fresh
                eq_refl eq_refl eq_refl) as (r & post & Htrace & _).
    exists r, post. exact Htrace.
  - apply (HJoin _ _ _ _ (Ok 1) [EvWait (Ext := Fake.ext) 1 None]).
    reflexivity.
  - apply (HBootstrapCalls [Byte.x7b; Byte.x7d]
             {| ServerName := ""; Enabled := false |} "etag0"
             Fake.fresh Fake.fresh);
      reflexivity.
  - apply (HBootstrap _ "/var/lib/lxd/unix.socket"
             {| ClusterPut_Cluster :=
                  {| ServerName := "node1"; Enabled := true |};
                ClusterAddress := ""; ClusterCertificate := "" |}
             _ (Ok 1) [EvWait (Ext := Fake.ext) 1 None]).
    reflexivity.
Defined.

Lemma Bootstrap_already_clustered_witness :
  returned Fake.answer (Bootstrap Fake.node1) Fake.clustered =
    Some (Errorf "This LXD server is already clustered") /\
  Forall (fun e => is_UpdateCluster e = false)
    (trace Fake.answer (Bootstrap Fake.node1) Fake.clustered) /\
  exists pre cl etag,
    trace Fake.answer (Bootstrap Fake.node1) Fake.clustered =
      pre ++ [EvGetCluster (client Fake.node1) (Ok (cl, etag))] /\
    Enabled cl = true.
Proof.
  pose proof (Bootstrap_already_clustered Fake.answer Fake.node1
                Fake.clustered) as [Hleft Hright].
  destruct (Hleft
              [EvRunCommandWithFds [Byte.x7b; Byte.x7d] "lxd"
                 ["init"; "--preseed"] None]
              "/var/lib/lxd/unix.socket"
              {| ServerName := "node1"; Enabled := true |} "etag1" []
              eq_refl eq_refl) as (Hres & _ & Hnone).
  split_and!; [exact Hres|exact Hnone|].
  apply (Hright (Errorf "This LXD server is already clustered"));
    reflexivity.
Defined.

Lemma Bootstrap_init_before_GetCluster_witness :
  (exists data,
     yaml_Marshal (initData Fake.node1) = Ok data /\
     [EvRunCommandWithFds [Byte.x7b; Byte.x7d] "lxd" ["init"; "--preseed"]
        None] =
     [EvRunCommandWithFds data "lxd" ["init"; "--preseed"] None]) /\
  (exists data cl etag,
     trace Fake.answer (Bootstrap Fake.node1) Fake.clustered =
       [EvRunCommandWithFds data "lxd" ["init"; "--preseed"] None;
        EvGetCluster (client Fake.node1) (Ok (cl, etag))] /\
     Enabled cl = true).
Proof.
  pose proof (Bootstrap_init_before_GetCluster Fake.answer Fake.node1
                Fake.clustered) as [Hbefore Hclustered].
  split.
  - apply (Hbefore _ "/var/lib/lxd/unix.socket"
             (Ok ({| ServerName := "node1"; Enabled := true |}, "etag1")) []).
    reflexivity.
  - apply Hclustered. reflexivity.
Defined.

Lemma Bootstrap_UpdateCluster_call_witness :
  exists data cl etag op,
    Enabled cl = false /\
    trace Fake.answer (Bootstrap Fake.node1) Fake.fresh =
      [EvRunCommandWithFds data "lxd" ["init"; "--preseed"] None;
       EvGetCluster (client Fake.node1) (Ok (cl, etag));
       EvUpdateCluster (client Fake.node1)
         {| ClusterPut_Cluster :=
              {| ServerName := name Fake.node1; Enabled := true |};
            ClusterAddress := ""; ClusterCertificate := "" |} etag (Ok op);
       EvWait op None].
Proof.
  pose proof (Bootstrap_UpdateCluster_call Fake.answer Fake.node1
                Fake.fresh) as [_ Hnil].
  apply Hnil. reflexivity.
Defined.

Lemma Bootstrap_preseed_witness :
  exists r post,
    trace Fake.answer (Bootstrap Fake.node1) Fake.fresh =
      EvRunCommandWithFds [Byte.x7b; Byte.x7d] "lxd" ["init"; "--preseed"] r
        :: post.
Proof.
  destruct (Bootstrap_preseed Fake.answer Fake.node1 Fake.fresh
              [Byte.x7b; Byte.x7d] eq_refl) as [(r & post & Hrun & _) _].
  exists r, post. exact Hrun.
Defined.

Lemma IssueToken_reads_without_waiting_witness :
  Forall (fun e => is_Wait e = false)
    (trace Fake.answer (IssueToken Fake.node1 "node2") Fake.fresh).
Proof.
  pose proof (IssueToken_reads_without_waiting Fake.answer Fake.node1
                "node2" Fake.fresh) as [_ Hnowait].
  exact Hnowait.
Defined.

Lemma failures_wrapped_or_passed_on_witness :
  returned Fake.answer (Join Fake.node1 "TOKEN") Fake.untrusted =
    Some (ErrorfW "Failed to setup trust relationship with cluster: "
            (Collab AuthRejected "not authorized")) /\
  returned Fake.answer (IssueToken Fake.node1 "node2") Fake.unreachable =
    ("", Some (Collab NetworkError "connection refused")).
Proof.
  pose proof (failures_wrapped_or_passed_on Fake.answer Fake.node1
                Fake.untrusted) as (_ & HJoin & _).
  pose proof (failures_wrapped_or_passed_on Fake.answer Fake.node1
                Fake.unreachable) as (_ & _ & HIssue).
  split.
  - apply (proj1 (HJoin "TOKEN" _ _ eq_refl eq_refl)).
  - apply (HIssue "node2" _ _ eq_refl eq_refl).
Defined.

Lemma IssueToken_surfaces_Conflict_witness :
  returned Fake.answer (IssueToken Fake.node1 "node2") Fake.name_taken =
    ("", Some (Collab Conflict "member node2 already exists")).
Proof.
  apply (IssueToken_surfaces_Conflict Fake.answer Fake.node1 "node2"
           Fake.name_taken [] [] "/var/lib/lxd/unix.socket"
           {| Post_ServerName := "node2" |}
           (Collab Conflict "member node2 already exists") eq_refl).
Defined.

Lemma NewLXDService_accessors_witness :
  Port Fake.node1 = 8443%Z /\ Name Fake.node1 = "node1" /\
  Address Fake.node1 = "10.0.0.5" /\
  returned Fake.answer
    (session Fake.node1 [CallBootstrap; CallJoin "TOKEN";
                         CallIssueToken "node2"]) Fake.fresh =
    (LXD, "node1", "10.0.0.5", 8443%Z).
Proof.
  destruct (NewLXDService_accessors Fake.answer "node1" "10.0.0.5"
              "/var/lib/lxd" Fake.fresh Fake.fresh Fake.node1
              [EvConnectLXDUnix (Ext := Fake.ext) "/var/lib/lxd/unix.socket"
                 (Ok "/var/lib/lxd/unix.socket")] eq_refl)
    as (HPort & HName & HAddress & Hsession).
  split_and!; [exact HPort|exact HName|exact HAddress|apply Hsession].
Defined.

(** ** Where the code departs from the spec *)

(** C3 as the spec has it fails: this run of [IssueToken] returns a token,
    yet the member operation was never waited for. *)
Lemma IssueToken_not_awaited :
  returned Fake.answer (IssueToken Fake.node1 "node2") Fake.fresh =
    ("TOKEN", None) /\
  ~ awaited (trace Fake.answer (IssueToken Fake.node1 "node2") Fake.fresh).
Proof.
  split; [reflexivity|]. intros Hawaited.
  specialize (Hawaited
                [EvCreateClusterMember (Ext := Fake.ext)
                   "/var/lib/lxd/unix.socket"
                   {| Post_ServerName := "node2" |} (Ok 2)]
                2 (Some "TOKEN") [] eq_refl).
  apply list_elem_of_singleton in Hawaited. discriminate Hawaited.
Qed.

(** C4 as the spec has it fails: a network failure of [CreateClusterMember]
    comes out of [IssueToken] bare, and so does a failure to load the
    certificate out of [Join]. *)
Lemma failures_not_stage_wrapped :
  ~ stage_wrapped
      (returned Fake.answer (IssueToken Fake.node1 "node2")
         Fake.unreachable).2
      (trace Fake.answer (IssueToken Fake.node1 "node2") Fake.unreachable) /\
  ~ stage_wrapped
      (returned Fake.answer (Join Fake.node1 "TOKEN") Fake.no_cert)
      (trace Fake.answer (Join Fake.node1 "TOKEN") Fake.no_cert).
Proof.
  split; intros Hwrapped;
    destruct (Hwrapped _ _ eq_refl eq_refl) as [stage Hstage];
    discriminate Hstage.
Qed.

End Runs.

(** * Further properties of the methods *)

Section Further.
Context `{Ext : Externals} {W : Type} (h : handler W).

Ltac answers :=
  unfold trace, returned; cbn;
  repeat (case_match; simplify_eq/=).

Ltac locate pre :=
  repeat (destruct pre as [|? pre]; simplify_eq/=).

(** [chain] is what repeated [errors.Unwrap] produces. *)
Lemma chain_Unwrap (e : error) :
  chain e = e :: from_option chain [] (Unwrap e).
Proof. by destruct e. Qed.

(** X1. [NewLXDService] makes exactly one call, to the unix socket under
    the given directory.  It returns a service exactly when that call
    succeeded; the service then holds the connection it got and the
    directory; otherwise there is no service and the error wraps the cause. *)
Theorem NewLXDService_connects_once (nm addr d : string) (w : W) :
  exists r,
    trace h (NewLXDService nm addr d) w =
      [EvConnectLXDUnix (filepath_Join d "unix.socket") r] /\
    (forall cl, r = Ok cl ->
       exists s, returned h (NewLXDService nm addr d) w = Ok s /\
                 client s = cl /\ dir s = d) /\
    (forall err, r = Err err ->
       returned h (NewLXDService nm addr d) w =
         Err (ErrorfW "Failed to connect to local LXD: " err)).
Proof.
  unfold NewLXDService. answers; eexists; (split; [reflexivity|]);
    split; intros ? ?; simplify_eq; eauto.
Qed.

(** X2. When the preseed does not marshal, [Bootstrap] calls nobody: the
    local init command is not run and the client is not contacted.  The
    returned error wraps the marshalling error. *)
Theorem Bootstrap_marshal_failure (s : LXDService) (w : W) (err : error) :
  yaml_Marshal (initData s) = Err err ->
  trace h (Bootstrap s) w = [] /\
  returned h (Bootstrap s) w =
    Some (ErrorfW "Failed to parse preseed configuration as yaml: " err).
Proof. intros Hyaml. unfold Bootstrap. rewrite Hyaml. by answers. Qed.

(** X3. When the local init command fails, it was the only call of
    [Bootstrap]: the LXD client is never contacted, and the returned error
    wraps the command's error. *)
Theorem Bootstrap_init_failure (s : LXDService) (w : W) (pre post : list event)
    (stdin : Buffer) (cmd : string) (args : list string) (err : error) :
  trace h (Bootstrap s) w =
    pre ++ EvRunCommandWithFds stdin cmd args (Some err) :: post ->
  pre = [] /\ post = [] /\
  returned h (Bootstrap s) w =
    Some (ErrorfW "Failed to initialize LXD: " err).
Proof. unfold Bootstrap. answers; intros Hsplit; by locate pre. Qed.

(** X4. [Bootstrap] returns nil, the already-clustered error, or an error
    wrapped under one of five messages; the message for a failed write of the
    preseed to the buffer is not among them and is never returned. *)
Theorem Bootstrap_result_forms (s : LXDService) (w : W) :
  let res := returned h (Bootstrap s) w in
  (res = None \/
   res = Some (Errorf "This LXD server is already clustered") \/
   exists p err, p ∈ Bootstrap_messages /\ res = Some (ErrorfW p err)) /\
  forall err,
    res <> Some (ErrorfW "Failed to write preseed configuration: " err).
Proof.
  intros res; subst res. unfold Bootstrap, Bootstrap_messages. answers.
  all: split; [|by intros ? ?].
  all: first [ by left
             | by right; left
             | right; right; eexists _, _; split; [|reflexivity];
               set_solver ].
Qed.

(** X5. The methods stop at the first failure: in every run of
    [NewLXDService], [Bootstrap], [Join] and [IssueToken], a call that failed
    is the last call of the run. *)
Theorem failed_call_is_last (s : LXDService) (w : W) :
  (forall nm addr d pre e post err,
     trace h (NewLXDService nm addr d) w = pre ++ e :: post ->
     fault e = Some err -> post = []) /\
  (forall pre e post err,
     trace h (Bootstrap s) w = pre ++ e :: post ->
     fault e = Some err -> post = []) /\
  (forall token pre e post err,
     trace h (Join s token) w = pre ++ e :: post ->
     fault e = Some err -> post = []) /\
  (forall peer pre e post err,
     trace h (IssueToken s peer) w = pre ++ e :: post ->
     fault e = Some err -> post = []).
Proof.
  split_and!.
  - intros nm addr d. unfold NewLXDService.
    answers; intros pre ? ? ? Hsplit Hfault; by locate pre.
  - unfold Bootstrap. answers; intros pre ? ? ? Hsplit Hfault; by locate pre.
  - intros token. unfold Join.
    answers; intros pre ? ? ? Hsplit Hfault; by locate pre.
  - intros peer. unfold IssueToken.
    answers; intros pre ? ? ? Hsplit Hfault; by locate pre.
Qed.

(** X6. [Join] and [Bootstrap] return nil exactly when their last call is a
    [Wait] that returned nil; for [Join] this is also exactly when none of
    its calls failed. *)
Theorem nil_iff_operation_completed (s : LXDService) (w : W) :
  (forall token,
     (returned h (Join s token) w = None <->
      exists op, last (trace h (Join s token) w) = Some (EvWait op None)) /\
     (returned h (Join s token) w = None <->
      Forall (fun e => fault e = None) (trace h (Join s token) w))) /\
  (returned h (Bootstrap s) w = None <->
   exists op, last (trace h (Bootstrap s) w) = Some (EvWait op None)).
Proof.
  split.
  - intros token. unfold Join. answers.
    all: split; (split; [intros Hres|intros Hobs]); simplify_eq/=; eauto 10.
    all: try (destruct Hobs as [? Hobs]; by simplify_eq/=).
    all: repeat match goal with
           | H : Forall _ (_ :: _) |- _ =>
               apply Forall_cons in H as [? H]; simplify_eq/=
           end.
  - unfold Bootstrap. answers.
    all: split; [intros Hres|intros [? Hobs]]; simplify_eq/=; eauto.
Qed.

(** X7. In [Join], once [UpdateCluster] has returned an operation, the one
    remaining call is [Wait] on that very operation, and [Join] returns nil
    when the wait does and the wrapped wait error otherwise. *)
Theorem Join_waits_for_update (s : LXDService) (token : string) (w : W)
    (pre post : list event) (c : InstanceServer) (put : ClusterPut)
    (etag : string) (op : Operation) :
  trace h (Join s token) w =
    pre ++ EvUpdateCluster c put etag (Ok op) :: post ->
  exists r,
    post = [EvWait op r] /\
    returned h (Join s token) w =
      match r with
      | None => None
      | Some err => Some (ErrorfW "Failed to join cluster: " err)
      end.
Proof. unfold Join. answers; intros Hsplit; locate pre; eauto. Qed.

(** X8. [Join] does not tell a rejected membership update from a failed
    wait: when one run ends in a failed [UpdateCluster] and another in a
    failed [Wait], with the same error, the two runs return the same error. *)
Theorem Join_update_and_wait_same_error {W' : Type} (h' : handler W')
    (s s' : LXDService) (token token' : string) (w : W) (w' : W')
    (c : InstanceServer) (put : ClusterPut) (etag : string) (op : Operation)
    (err : error) :
  last (trace h (Join s token) w) =
    Some (EvUpdateCluster c put etag (Err err)) ->
  last (trace h' (Join s' token') w') = Some (EvWait op (Some err)) ->
  returned h (Join s token) w = returned h' (Join s' token') w'.
Proof.
  unfold Join. answers; intros Hlast; simplify_eq/=.
  all: answers; intros Hlast'; by simplify_eq/=.
Qed.

(** X9. [Bootstrap] does tell its stages apart: when two runs end in a
    failed call and return the same error, the failed calls went to the same
    function and failed with the same error. *)
Theorem Bootstrap_error_names_the_call {W' : Type} (h' : handler W')
    (s s' : LXDService) (w : W) (w' : W') (e e' : event) (err err' : error) :
  last (trace h (Bootstrap s) w) = Some e -> fault e = Some err ->
  last (trace h' (Bootstrap s') w') = Some e' -> fault e' = Some err' ->
  returned h (Bootstrap s) w = returned h' (Bootstrap s') w' ->
  call_name e = call_name e' /\ err = err'.
Proof.
  unfold Bootstrap. answers; intros Hlast Hfault; simplify_eq/=.
  all: answers; intros Hlast' Hfault' Hsame; by simplify_eq/=.
Qed.

(** X10. Whatever the failed call was, its error can be recovered from what
    the method returns: it is on the returned error's chain, and the
    returned message ends with its message. *)
Theorem returned_error_carries_cause (s : LXDService) (w : W) :
  (forall nm addr d e err,
     last (trace h (NewLXDService nm addr d) w) = Some e ->
     fault e = Some err ->
     carries (failure (returned h (NewLXDService nm addr d) w)) err) /\
  (forall e err,
     last (trace h (Bootstrap s) w) = Some e -> fault e = Some err ->
     carries (returned h (Bootstrap s) w) err) /\
  (forall token e err,
     last (trace h (Join s token) w) = Some e -> fault e = Some err ->
     carries (returned h (Join s token) w) err) /\
  (forall peer e err,
     last (trace h (IssueToken s peer) w) = Some e -> fault e = Some err ->
     carries (returned h (IssueToken s peer) w).2 err).
Proof.
  assert (Hbare : forall err, carries (Some err) err).
  { intros err. exists err. split_and!; [done| |by exists ""].
    destruct err; set_solver. }
  assert (Hwrapped : forall p err, carries (Some (ErrorfW p err)) err).
  { intros p err. eexists. split_and!; [done| |by exists p].
    cbn. apply elem_of_cons. right. destruct err; set_solver. }
  split_and!.
  - intros nm addr d. unfold NewLXDService.
    answers; intros ? ? Hlast Hfault; by simplify_eq/=.
  - unfold Bootstrap. answers; intros ? ? Hlast Hfault; by simplify_eq/=.
  - intros token. unfold Join.
    answers; intros ? ? Hlast Hfault; by simplify_eq/=.
  - intros peer. unfold IssueToken.
    answers; intros ? ? Hlast Hfault; by simplify_eq/=.
Qed.

(** X11. [IssueToken] returns the empty string whenever it returns an error.
    When it returns no error, the string is that of the join token converted
    from the state that [Get] returned, which was its last call. *)
Theorem IssueToken_token_or_error (s : LXDService) (peer : string) (w : W) :
  let res := returned h (IssueToken s peer) w in
  (res.2 <> None -> res.1 = "") /\
  (res.2 = None ->
   exists op opAPI joinToken,
     last (trace h (IssueToken s peer) w) = Some (EvGet op opAPI) /\
     ToClusterJoinToken opAPI = Ok joinToken /\
     res.1 = JoinToken_String joinToken).
Proof.
  intros res; subst res. unfold IssueToken. answers.
  all: split; intros Hres; simplify_eq/=; eauto 10.
Qed.

(** X12. For every service the preseed has exactly two server settings,
    [core.https_address] and [cluster.https_address], and both hold the same
    canonical address. *)
Theorem preseed_addresses_agree (s : LXDService) :
  let config := Config (Node_ServerPut (Node (initData s))) in
  dom config = ({["core.https_address"; "cluster.https_address"]}
                  : gset string) /\
  config !! "cluster.https_address" = config !! "core.https_address" /\
  config !! "cluster.https_address" =
    Some (any_string (CanonicalNetworkAddress (address s) (port s))).
Proof.
  cbn. split_and!.
  - rewrite !dom_insert_L, dom_empty_L. set_solver.
  - by rewrite lookup_insert_ne, !lookup_insert_eq.
  - by rewrite lookup_insert_ne, lookup_insert_eq.
Qed.

(** X13. For every service the preseed is self-contained: each device of
    each profile that names a pool names a storage pool that the same
    preseed creates, and the root disk is the only device. *)
Theorem preseed_root_disk_pool_exists (s : LXDService) :
  let node := Node (initData s) in
  forall profile dname dev pool,
    profile ∈ Profiles node ->
    Devices (Profile_ProfilePut profile) !! dname = Some dev ->
    dname = "root" /\
    dom dev = ({["path"; "pool"; "type"]} : gset string) /\
    (dev !! "pool" = Some pool ->
     exists sp, sp ∈ StoragePools node /\ Pool_Name sp = pool /\
                Pool_Driver sp = "dir").
Proof.
  cbn. intros profile dname dev pool Hprofile Hdev.
  apply list_elem_of_singleton in Hprofile as ->. cbn in Hdev.
  apply lookup_insert_Some in Hdev as [[<- <-]|[_ Hdev]];
    [|by rewrite lookup_empty in Hdev].
  split_and!; [done| |].
  - rewrite !dom_insert_L, dom_empty_L. set_solver.
  - rewrite lookup_insert_ne, lookup_insert_eq by done. intros [= <-].
    eexists. split; [apply list_elem_of_singleton; reflexivity|done].
Qed.

Ltac client_of Hin Hclient :=
  destruct Hclient as [[? ->]|[(?&?&?&->)|(?&?&->)]];
  repeat (apply elem_of_cons in Hin as [Hin|Hin]; [by simplify_eq|]);
  by apply elem_of_nil in Hin.

(** X14. Constructor and methods together.  For a service that
    [NewLXDService] returned, [Bootstrap] announces the canonical form of the
    constructor's address and of [LXDPort], enables clustering under the
    constructor's name, [Join] loads the certificate from the constructor's
    directory, and every client call of the three methods is made on the
    connection that the constructor opened. *)
Theorem constructed_service_use (nm addr d : string) (w w1 : W)
    (s : LXDService) (t : list event) :
  run h (NewLXDService nm addr d) w = (Ok s, w1, t) ->
  Config (Node_ServerPut (Node (initData s))) !! "core.https_address" =
    Some (any_string (CanonicalNetworkAddress addr LXDPort)) /\
  (forall w2 pre c put etag r post,
     trace h (Bootstrap s) w2 = pre ++ EvUpdateCluster c put etag r :: post ->
     ServerName (ClusterPut_Cluster put) = nm) /\
  (forall token w2 pre dd r post,
     trace h (Join s token) w2 = pre ++ EvLoadServerCert dd r :: post ->
     dd = d) /\
  (forall m w2 e c,
     e ∈ trace h (invoke s m) w2 ->
     (exists r, e = EvGetCluster c r) \/
     (exists put etag r, e = EvUpdateCluster c put etag r) \/
     (exists post r, e = EvCreateClusterMember c post r) ->
     t = [EvConnectLXDUnix (filepath_Join d "unix.socket") (Ok c)]).
Proof.
  unfold NewLXDService. cbn. intros Hrun.
  repeat (case_match; simplify_eq/=).
  split_and!.
  - apply lookup_insert_eq.
  - intros w2. unfold Bootstrap. answers;
      intros pre ? ? ? ? ? Hsplit; by locate pre.
  - intros token w2. unfold Join. answers;
      intros pre ? ? ? Hsplit; by locate pre.
  - intros m w2 e c Hin Hclient. unfold trace in Hin.
    destruct m; cbn [invoke] in Hin; rewrite run_bind in Hin.
    + revert Hin. unfold Bootstrap. answers; intros Hin; client_of Hin Hclient.
    + revert Hin. unfold Join. answers; intros Hin; client_of Hin Hclient.
    + revert Hin. unfold IssueToken.
      answers; intros Hin; client_of Hin Hclient.
Qed.

(** X15. Which collaborators each method may call.  [Bootstrap] calls only
    the init command, [GetCluster], [UpdateCluster] and [Wait]; [Join] calls
    only [configFromToken], [LoadServerCert], [SetupTrust], [UpdateCluster]
    and [Wait], so it neither runs the local init nor reads the cluster
    state; [IssueToken] calls only [CreateClusterMember] and [Get], so it
    never updates the cluster configuration.  No call is made twice. *)
Theorem calls_of_each_method (s : LXDService) (w : W) :
  (call_name <$> trace h (Bootstrap s) w)
    `prefix_of` ["RunCommandWithFds"; "GetCluster"; "UpdateCluster"; "Wait"] /\
  (forall token,
     (call_name <$> trace h (Join s token) w)
       `prefix_of` ["configFromToken"; "LoadServerCert"; "SetupTrust";
                    "UpdateCluster"; "Wait"]) /\
  (forall peer,
     (call_name <$> trace h (IssueToken s peer) w)
       `prefix_of` ["CreateClusterMember"; "Get"]).
Proof.
  split_and!.
  - unfold Bootstrap. answers; by eexists.
  - intros token. unfold Join. answers; by eexists.
  - intros peer. unfold IssueToken. answers; by eexists.
Qed.

End Further.

(** * The further properties in the scripted environments *)

Section FurtherRuns.
#[local] Existing Instance Fake.ext.

Example Bootstrap_init_fails_run :
  run Fake.answer (Bootstrap Fake.node1) Scripts.init_fails =
  (Some (ErrorfW "Failed to initialize LXD: " Scripts.refused),
   Scripts.init_fails,
   [EvRunCommandWithFds [Byte.x7b; Byte.x7d] "lxd" ["init"; "--preseed"]
      (Some Scripts.refused)]).
Proof. reflexivity. Qed.

Example Join_wait_fails_run :
  run Fake.answer (Join Fake.node1 "TOKEN") Scripts.wait_fails =
  (Some (ErrorfW "Failed to join cluster: " Scripts.refused),
   Scripts.wait_fails,
   [EvConfigFromToken Fake.node1 "TOKEN" (Ok Fake.config1);
    EvLoadServerCert "/var/lib/lxd" (Ok "CERT");
    EvSetupTrust "CERT" "node1" "10.0.0.1:8443" "F" "TOKEN" None;
    EvUpdateCluster "/var/lib/lxd/unix.socket" Fake.config1 "" (Ok 1);
    EvWait 1 (Some Scripts.refused)]).
Proof. reflexivity. Qed.

Example IssueToken_no_metadata_run :
  run Fake.answer (IssueToken Fake.node1 "node2") Scripts.no_metadata =
  ("",
   Some (ErrorfW "Failed converting token operation to join token: "
           (Errorf "Operation metadata is nil")),
   Scripts.no_metadata,
   [EvCreateClusterMember "/var/lib/lxd/unix.socket"
      {| Post_ServerName := "node2" |} (Ok 2);
    EvGet 2 None]).
Proof. reflexivity. Qed.

Lemma NewLXDService_connects_once_witness :
  exists s,
    returned Fake.answer
      (NewLXDService "node1" "10.0.0.5" "/var/lib/lxd") Fake.fresh = Ok s /\
    client s = "/var/lib/lxd/unix.socket" /\ dir s = "/var/lib/lxd".
Proof.
  destruct (NewLXDService_connects_once Fake.answer "node1" "10.0.0.5"
              "/var/lib/lxd" Fake.fresh) as (r & Htrace & Hok & _).
  apply Hok. cbn in Htrace. injection Htrace as <-. reflexivity.
Defined.

Lemma Bootstrap_init_failure_witness :
  @nil event = [] /\ @nil event = [] /\
  returned Fake.answer (Bootstrap Fake.node1) Scripts.init_fails =
    Some (ErrorfW "Failed to initialize LXD: " Scripts.refused).
Proof.
  apply (Bootstrap_init_failure Fake.answer Fake.node1 Scripts.init_fails
           [] [] [Byte.x7b; Byte.x7d] "lxd" ["init"; "--preseed"]
           Scripts.refused).
  reflexivity.
Defined.

Lemma Bootstrap_result_forms_witness :
  returned Fake.answer (Bootstrap Fake.node1) Scripts.init_fails = None \/
  returned Fake.answer (Bootstrap Fake.node1) Scripts.init_fails =
    Some (Errorf "This LXD server is already clustered") \/
  exists p err,
    p ∈ Bootstrap_messages /\
    returned Fake.answer (Bootstrap Fake.node1) Scripts.init_fails =
      Some (ErrorfW p err).
Proof.
  pose proof (Bootstrap_result_forms Fake.answer Fake.node1
                Scripts.init_fails) as [Hforms _].
  exact Hforms.
Defined.

Lemma failed_call_is_last_witness :
  @nil event = [].
Proof.
  pose proof (failed_call_is_last Fake.answer Fake.node1 Fake.untrusted)
    as (_ & _ & HJoin & _).
  apply (HJoin "TOKEN"
           [EvConfigFromToken Fake.node1 "TOKEN" (Ok Fake.config1);
            EvLoadServerCert (Ext := Fake.ext) "/var/lib/lxd" (Ok "CERT")]
           (EvSetupTrust (Ext := Fake.ext) "CERT" "node1" "10.0.0.1:8443"
              "F" "TOKEN" (Some (Collab AuthRejected "not authorized")))
           [] (Collab AuthRejected "not authorized"));
    reflexivity.
Defined.

Lemma nil_iff_operation_completed_witness :
  returned Fake.answer (Join Fake.node1 "TOKEN") Fake.fresh = None /\
  returned Fake.answer (Bootstrap Fake.node1) Fake.fresh = None.
Proof.
  pose proof (nil_iff_operation_completed Fake.answer Fake.node1 Fake.fresh)
    as [HJoin HBootstrap].
  split.
  - apply (proj1 (HJoin "TOKEN")). exists 1. reflexivity.
  - apply HBootstrap. exists 1. reflexivity.
Defined.

Lemma Join_waits_for_update_witness :
  exists r,
    [EvWait (Ext := Fake.ext) 1 (Some Scripts.refused)] = [EvWait 1 r] /\
    returned Fake.answer (Join Fake.node1 "TOKEN") Scripts.wait_fails =
      match r with
      | None => None
      | Some err => Some (ErrorfW "Failed to join cluster: " err)
      end.
Proof.
  apply (Join_waits_for_update Fake.answer Fake.node1 "TOKEN"
           Scripts.wait_fails
           [EvConfigFromToken Fake.node1 "TOKEN" (Ok Fake.config1);
            EvLoadServerCert (Ext := Fake.ext) "/var/lib/lxd" (Ok "CERT");
            EvSetupTrust (Ext := Fake.ext) "CERT" "node1" "10.0.0.1:8443"
              "F" "TOKEN" None]
           [EvWait (Ext := Fake.ext) 1 (Some Scripts.refused)]
           "/var/lib/lxd/unix.socket" Fake.config1 "" 1).
  reflexivity.
Defined.

Lemma Join_update_and_wait_same_error_witness :
  returned Fake.answer (Join Fake.node1 "TOKEN") Scripts.update_fails =
  returned Fake.answer (Join Fake.node1 "TOKEN") Scripts.wait_fails.
Proof.
  apply (Join_update_and_wait_same_error Fake.answer Fake.answer
           Fake.node1 Fake.node1 "TOKEN" "TOKEN"
           Scripts.update_fails Scripts.wait_fails
           "/var/lib/lxd/unix.socket" Fake.config1 "" 1 Scripts.refused);
    reflexivity.
Defined.

Lemma Bootstrap_error_names_the_call_witness :
  "UpdateCluster" = "UpdateCluster" /\ Scripts.refused = Scripts.refused.
Proof.
  apply (Bootstrap_error_names_the_call Fake.answer Fake.answer
           Fake.node1 Fake.node1 Scripts.update_fails Scripts.update_fails
           (EvUpdateCluster (Ext := Fake.ext) "/var/lib/lxd/unix.socket"
              {| ClusterPut_Cluster :=
                   {| ServerName := "node1"; Enabled := true |};
                 ClusterAddress := ""; ClusterCertificate := "" |}
              "etag0" (Err Scripts.refused))
           (EvUpdateCluster (Ext := Fake.ext) "/var/lib/lxd/unix.socket"
              {| ClusterPut_Cluster :=
                   {| ServerName := "node1"; Enabled := true |};
                 ClusterAddress := ""; ClusterCertificate := "" |}
              "etag0" (Err Scripts.refused))
           Scripts.refused Scripts.refused);
    reflexivity.
Defined.

Lemma returned_error_carries_cause_witness :
  carries (returned Fake.answer (Join Fake.node1 "TOKEN") Fake.untrusted)
    (Collab AuthRejected "not authorized") /\
  carries
    (returned Fake.answer (IssueToken Fake.node1 "node2") Fake.name_taken).2
    (Collab Conflict "member node2 already exists").
Proof.
  pose proof (returned_error_carries_cause Fake.answer Fake.node1
                Fake.untrusted) as (_ & _ & HJoin & _).
  pose proof (returned_error_carries_cause Fake.answer Fake.node1
                Fake.name_taken) as (_ & _ & _ & HIssue).
  split.
  - apply (HJoin "TOKEN" _ _ eq_refl eq_refl).
  - apply (HIssue "node2" _ _ eq_refl eq_refl).
Defined.

Lemma IssueToken_token_or_error_witness :
  (returned Fake.answer (IssueToken Fake.node1 "node2")
     Scripts.no_metadata).1 = "" /\
  exists op opAPI joinToken,
    last (trace Fake.answer (IssueToken Fake.node1 "node2") Fake.fresh) =
      Some (EvGet op opAPI) /\
    ToClusterJoinToken opAPI = Ok joinToken /\
    (returned Fake.answer (IssueToken Fake.node1 "node2") Fake.fresh).1 =
      JoinToken_String joinToken.
Proof.
  pose proof (IssueToken_token_or_error Fake.answer Fake.node1 "node2"
                Scripts.no_metadata) as [Hempty _].
  pose proof (IssueToken_token_or_error Fake.answer Fake.node1 "node2"
                Fake.fresh) as [_ Htoken].
  split.
  - apply Hempty. discriminate.
  - apply Htoken. reflexivity.
Defined.

Lemma preseed_addresses_agree_witness :
  Config (Node_ServerPut (Node (initData Fake.node1)))
    !! "cluster.https_address" = Some (any_string "10.0.0.5:8443").
Proof.
  pose proof (preseed_addresses_agree Fake.node1) as (_ & _ & Hcluster).
  exact Hcluster.
Defined.

Lemma preseed_root_disk_pool_exists_witness :
  exists sp,
    sp ∈ StoragePools (Node (initData Fake.node1)) /\
    Pool_Name sp = "local" /\ Pool_Driver sp = "dir".
Proof.
  destruct (preseed_root_disk_pool_exists Fake.node1
              {| Profile_ProfilePut :=
                   {| Devices :=
                        <["root" := <["path" := "/"]> (<["pool" := "local"]>
                           (<["type" := "disk"]> ∅))]> ∅ |};
                 Profile_Name := "default" |}
              "root"
              (<["path" := "/"]> (<["pool" := "local"]>
                 (<["type" := "disk"]> ∅)))
              "local" (list_elem_of_here _ _) eq_refl) as (_ & _ & Hpool).
  apply Hpool. reflexivity.
Defined.

Lemma constructed_service_use_witness :
  Config (Node_ServerPut (Node (initData Fake.node1)))
    !! "core.https_address" = Some (any_string "10.0.0.5:8443").
Proof.
  destruct (constructed_service_use Fake.answer "node1" "10.0.0.5"
              "/var/lib/lxd" Fake.fresh Fake.fresh Fake.node1
              [EvConnectLXDUnix (Ext := Fake.ext) "/var/lib/lxd/unix.socket"
                 (Ok "/var/lib/lxd/unix.socket")] eq_refl)
    as (Haddress & _).
  exact Haddress.
Defined.

Lemma calls_of_each_method_witness :
  (call_name <$> trace Fake.answer (Join Fake.node1 "TOKEN") Fake.untrusted)
    `prefix_of` ["configFromToken"; "LoadServerCert"; "SetupTrust";
                 "UpdateCluster"; "Wait"].
Proof.
  pose proof (calls_of_each_method Fake.answer Fake.node1 Fake.untrusted)
    as (_ & HJoin & _).
  apply HJoin.
Defined.

End FurtherRuns.

Section BrokenRuns.
#[local] Existing Instance Broken.ext.

Example NewLXDService_refused_run :
  run Broken.answer (NewLXDService "node1" "10.0.0.5" "/var/lib/lxd") tt =
  (Err (ErrorfW "Failed to connect to local LXD: " Scripts.refused), tt,
   [EvConnectLXDUnix "/var/lib/lxd/unix.socket" (Err Scripts.refused)]).
Proof. reflexivity. Qed.

Lemma Bootstrap_marshal_failure_witness :
  trace Broken.answer (Bootstrap Broken.node) tt = [] /\
  returned Broken.answer (Bootstrap Broken.node) tt =
    Some (ErrorfW "Failed to parse preseed configuration as yaml: "
            (Errorf "yaml: unsupported value")).
Proof.
  apply (Bootstrap_marshal_failure Broken.answer Broken.node tt
           (Errorf "yaml: unsupported value")).
  reflexivity.
Defined.

End BrokenRuns.
